(** * QuantizeLayer: the Keras layer that delegates to an injected quantizer

    A shallow embedding of
    [tensorflow_model_optimization/python/core/quantization/keras/quantize_layer.py].

    The class is an adapter between the Keras layer protocol and a
    [Quantizer] strategy object.  The embedding keeps the Python the module
    itself executes (attribute reads and writes on [self], dictionary
    operations, the [isinstance] test, the unpacking, the explicit [raise])
    and takes everything that belongs to TensorFlow, Keras or the quantizer
    as an interface, [Framework], over an abstract framework world. *)

From stdpp Require Import base gmap strings list fin_maps.

(** ** Python values, exceptions and the store *)

Module Py.

(** Addresses of the objects whose dictionaries this module reads or writes:
    [QuantizeLayer] instances (their attribute dictionary) and the [dict]
    objects handled by [get_config] and [from_config]. *)
Abbreviation loc := positive.

(** A Python value.  [VStr s] is a [str], as the sequence of its
    characters.  [VObj classes id] is a reference to an object owned by the
    framework (a tensor, a variable, a quantizer, a list, a nested
    configuration): [id] is its identity and [classes] are the classes it is
    an instance of, each by its qualified name: the method resolution order
    of its type, and the abstract base classes that type is registered
    with. *)
#[warnings="-register-all"]
Inductive value : Type :=
| VNone
| VBool (b : bool)
| VInt (n : Z)
| VStr (s : string)
| VTuple (vs : list value)
| VObj (mro : list string) (id : positive).

(** The exceptions that appear: the ones Python raises for the operations of
    this module and whatever the framework raises. *)
Inductive exc : Type :=
| ValueError (msg : string)
| TypeError (msg : string)
| KeyError (key : string)
| AttributeError (name : string)
| FrameworkError (cls msg : string).

Inductive outcome (A : Type) : Type :=
| Return (a : A)
| Raise (e : exc).
Arguments Return {A} a.
Arguments Raise {A} e.

(** The store.  [heap] holds, by address, the dictionaries this module
    writes: for a layer the attributes the module assigns ([quantizer],
    [min_var], [max_var], [optimizer_step]), and the [dict] objects of
    [get_config] and [from_config].  [world] is everything the framework
    keeps: the contents of variables, the graph, the learning phase, and the
    fields of the layer that belong to the base class (its name, its list of
    weights). *)
Record state (W : Type) : Type := State {
  heap : gmap loc (gmap string value);
  world : W
}.
Arguments State {W} heap world.
Arguments heap {W} s.
Arguments world {W} s.

(** Computations: state passing, the state is kept when an exception is
    raised (what was written before the [raise] stays written). *)
Definition M (W A : Type) : Type := state W → outcome A * state W.

Definition ret {W A} (a : A) : M W A := λ st, (Return a, st).

Definition raise {W A} (e : exc) : M W A := λ st, (Raise e, st).

Definition bind {W A B} (m : M W A) (k : A → M W B) : M W B := λ st,
  match m st with
  | (Return a, st') => k a st'
  | (Raise e, st') => (Raise e, st')
  end.

(** A call into the framework: it acts on the framework's world. *)
Definition framework {W A} (f : W → outcome A * W) : M W A := λ st,
  let '(r, w) := f (world st) in (r, State (heap st) w).

(** The classes [v] is an instance of, by qualified name: for a value of
    a built-in type its method resolution order, for an object what it
    carries. *)
Definition type_mro (v : value) : list string :=
  match v with
  | VNone => ["NoneType"; "object"]
  | VBool _ => ["bool"; "int"; "object"]
  | VInt _ => ["int"; "object"]
  | VStr _ => ["str"; "object"]
  | VTuple _ => ["tuple"; "object"]
  | VObj mro _ => mro
  end.

(** [isinstance(v, cls)]: [cls] is one of the classes of [v]. *)
Definition isinstance (v : value) (cls : string) : bool :=
  bool_decide (cls ∈ type_mro v).

(** [v is None] *)
Definition is_None (v : value) : bool :=
  match v with VNone => true | _ => false end.

(** [self.name], read from the instance dictionary. *)
Definition getattr {W} (self : loc) (name : string) : M W value := λ st,
  match heap st !! self ≫= (.!! name) with
  | Some v => (Return v, st)
  | None => (Raise (AttributeError name), st)
  end.

(** [self.name = v] *)
Definition setattr {W} (self : loc) (name : string) (v : value) : M W unit := λ st,
  (Return tt, State (alter <[name := v]> self (heap st)) (world st)).

(** A new object with dictionary [d], at an unused address. *)
Definition alloc {W} (d : gmap string value) : M W loc := λ st,
  let l := fresh (dom (heap st)) in
  (Return l, State (<[l := d]> (heap st)) (world st)).

(** The characters of a [str], each a [str] of length one: what iterating
    it yields. *)
Fixpoint characters (s : string) : list value :=
  match s with
  | EmptyString => []
  | String c s' => VStr (String c EmptyString) :: characters s'
  end.

(** [list(d.items())] and [dict(items)]: in [dict(items)] a later item
    replaces an earlier one with the same key. *)
Definition items (d : gmap string value) : list (string * value) := map_to_list d.

Definition dict (kvs : list (string * value)) : gmap string value :=
  foldl (λ d kv, <[kv.1 := kv.2]> d) ∅ kvs.

(** [d.copy()]: a new dictionary with the same entries. *)
Definition dict_copy {W} (d : loc) : M W loc := λ st,
  match heap st !! d with
  | Some m => alloc m st
  | None => (Raise (AttributeError "copy"), st)
  end.

(** [d.pop(key)]: removes the entry and returns its value; [KeyError] when
    there is none. *)
Definition dict_pop {W} (d : loc) (key : string) : M W value := λ st,
  match heap st !! d ≫= (.!! key) with
  | Some v => (Return v, State (alter (delete key) d (heap st)) (world st))
  | None => (Raise (KeyError key), st)
  end.

(** The entries of [d], as unpacking it into keywords passes them. *)
Definition dict_entries {W} (d : loc) : M W (gmap string value) := λ st,
  match heap st !! d with
  | Some m => (Return m, st)
  | None => (Raise (TypeError "argument after ** must be a mapping"), st)
  end.

End Py.
Export Py.

#[global] Instance M_ret {W} : MRet (M W) := @ret W.
#[global] Instance M_bind {W} : MBind (M W) := λ A B k m, bind m k.

(** ** What the module takes from TensorFlow, Keras and the quantizer *)

(** [tf.dtypes] *)
Inductive dtype : Type :=
| float16 | float32 | float64
| int8 | int16 | int32 | int64
| uint8 | bool_.

Definition dtype_is_integer (d : dtype) : bool :=
  match d with
  | int8 | int16 | int32 | int64 | uint8 => true
  | _ => false
  end.

Definition dtype_bits (d : dtype) : Z :=
  match d with
  | float16 | int16 => 16
  | float32 | int32 => 32
  | float64 | int64 => 64
  | int8 | uint8 | bool_ => 8
  end.

(** [tf.keras.initializers]: the module builds [Constant(value)] only. *)
Inductive initializer : Type :=
| Constant (c : Z).

(** The arguments of one [add_weight] call. *)
Record weight_spec : Type := WeightSpec {
  w_name : string;
  w_initializer : initializer;
  w_dtype : dtype;
  w_trainable : bool
}.

(** The functions of the base class [tf.keras.layers.Layer], of the Keras
    backend and utilities, and the methods of the quantizer object.  None of
    them is part of the module; each acts on the framework's world [W] and
    may raise.  They are never handed the dictionaries of [from_config] (the
    popped value and the unpacked keywords are passed, not the dictionary),
    and the four attributes of the layer are assigned by the module alone,
    so they do not act on [heap].  [smart_cond] receives the two closures of
    [call], which read the layer's attributes, so it is a function on
    computations; what is assumed of it is stated where it is used
    ([smart_cond_definite], [smart_cond_selects]). *)
Class Framework (W : Type) : Type := {
  (** [super(QuantizeLayer, self).__init__] applied to the keywords *)
  Layer_init : loc → gmap string value → W → outcome unit * W;
  (** the property [self.name] *)
  Layer_name : loc → W → outcome value * W;
  (** [self.add_weight(name, initializer=..., dtype=..., trainable=...)] *)
  Layer_add_weight : loc → weight_spec → W → outcome value * W;
  (** [super(QuantizeLayer, self).get_config()] *)
  Layer_get_config : loc → W → outcome (gmap string value) * W;
  (** [tf.keras.backend.learning_phase()] *)
  learning_phase : W → outcome value * W;
  (** [tf_utils.smart_cond(pred, true_fn, false_fn)] *)
  smart_cond : value → M W value → M W value → M W value;
  (** [quantizer.build(tensor_shape, name, layer)] *)
  Quantizer_build : value → value → value → loc → W → outcome value * W;
  (** the items that iterating an object yields to an unpacking (its
      [__iter__]), or the exception of an object that is not iterable *)
  Object_iter : value → W → outcome (list value) * W;
  (** [quantizer(inputs, step, training)] with its keywords *)
  Quantizer_call :
    value → value → value → value → gmap string value → W → outcome value * W;
  (** [tf.keras.utils.serialize_keras_object(instance)] *)
  serialize_keras_object : value → W → outcome value * W;
  (** [tf.keras.utils.deserialize_keras_object(identifier, module_objects,
      custom_objects)] *)
  deserialize_keras_object :
    value → list string → value → W → outcome value * W
}.

(** ** The module *)

(** The class [quantizers.Quantizer], by its qualified name. *)
Definition Quantizer : string :=
  "tensorflow_model_optimization.python.core.quantization.keras.quantizers.Quantizer".

(** The names bound at module level, the keys of [globals()]. *)
Definition globals : list string :=
  ["absolute_import"; "division"; "print_function"; "tf"; "tf_utils";
   "quantizers"; "serialize_keras_object"; "deserialize_keras_object";
   "QuantizeLayer"].

(** Unpacking, as the assignment of [build] to two targets does it: any
    iterable is accepted, a tuple and a [str] yield their elements, an object
    of the framework what its [__iter__] yields; [None], a [bool] and an
    [int] are not iterable. *)
Section Unpacking.
Context {W : Type} `{!Framework W}.

Definition iterate (v : value) : M W (list value) :=
  match v with
  | VTuple vs => mret vs
  | VStr s => mret (characters s)
  | VObj _ _ => framework (Object_iter v)
  | VNone | VBool _ | VInt _ =>
      raise (TypeError "cannot unpack non-iterable object")
  end.

(** [a, b = v] *)
Definition unpack2 (v : value) : M W (value * value) :=
  items ← iterate v;
  match items with
  | [a; b] => mret (a, b)
  | _ :: _ :: _ :: _ =>
      raise (ValueError "too many values to unpack (expected 2)")
  | _ => raise (ValueError "not enough values to unpack (expected 2)")
  end.

End Unpacking.

Module QuantizeLayer.
Section Methods.
Context {W : Type} `{!Framework W}.

Definition __init__ (self : loc) (quantizer : value)
    (kwargs : gmap string value) : M W unit :=
  framework (Layer_init self kwargs);;
  if is_None quantizer || negb (isinstance quantizer Quantizer) then
    raise (ValueError
      ("quantizer should not be None, and should be an instance" +:+
       "of `tfmot.quantization.keras.Quantizer`."))
  else
    setattr self "quantizer" quantizer.

(** [cls(quantizer=..., ...)]: a new instance, initialised. *)
Definition new (quantizer : value) (kwargs : gmap string value) : M W loc :=
  self ← alloc ∅;
  __init__ self quantizer kwargs;;
  mret self.

Definition build (self : loc) (input_shape : value) : M W unit :=
  quantizer ← getattr self "quantizer";
  name ← framework (Layer_name self);
  vars ← framework (Quantizer_build quantizer input_shape name self);
  '(min_var, max_var) ← unpack2 vars;
  setattr self "min_var" min_var;;
  setattr self "max_var" max_var;;
  step ← framework (Layer_add_weight self
            (WeightSpec "optimizer_step" (Constant (-1)) int32 false));
  setattr self "optimizer_step" step.

Definition _dict_vars (min_var max_var : value) : gmap string value :=
  dict [("min_var", min_var); ("max_var", max_var)].

(** The closure [quantizer_fn] that [_make_quantizer_fn(train_var)] returns. *)
Definition _make_quantizer_fn (self : loc) (inputs : value)
    (train_var : bool) : M W value :=
  quantizer ← getattr self "quantizer";
  optimizer_step ← getattr self "optimizer_step";
  min_var ← getattr self "min_var";
  max_var ← getattr self "max_var";
  framework (Quantizer_call quantizer inputs optimizer_step (VBool train_var)
               (_dict_vars min_var max_var)).

(** [call(self, inputs, training=None)]; an omitted [training] is [VNone]. *)
Definition call (self : loc) (inputs : value) (training : value) : M W value :=
  training ← (if is_None training then framework learning_phase
              else mret training);
  smart_cond training
    (_make_quantizer_fn self inputs true)
    (_make_quantizer_fn self inputs false).

Definition get_config (self : loc) : M W loc :=
  base_config ← framework (Layer_get_config self);
  quantizer ← getattr self "quantizer";
  serialized ← framework (serialize_keras_object quantizer);
  let config := dict [("quantizer", serialized)] in
  alloc (dict (items base_config ++ items config)).

Definition from_config (config : loc) : M W loc :=
  config ← dict_copy config;
  serialized ← dict_pop config "quantizer";
  quantizer ← framework (deserialize_keras_object serialized globals VNone);
  kwargs ← dict_entries config;
  new quantizer kwargs.

End Methods.
End QuantizeLayer.

(** ** Vocabulary of the statements *)

Section Vocabulary.
Context {W : Type} `{!Framework W}.

(** The layer at [self] has been constructed and built: its four own
    attributes are set. *)
Definition built (self : loc) (quantizer step min_var max_var : value)
    (st : state W) : Prop :=
  ∃ attrs, heap st !! self = Some attrs
    ∧ attrs !! "quantizer" = Some quantizer
    ∧ attrs !! "optimizer_step" = Some step
    ∧ attrs !! "min_var" = Some min_var
    ∧ attrs !! "max_var" = Some max_var.

(** A computation keeps a property of the state, whatever it returns. *)
Definition preserves {A} (I : state W → Prop) (m : M W A) : Prop :=
  ∀ st, I st → I (m st).2.

(** The documented behaviour of [smart_cond] on a Python [bool]: it returns
    [true_fn()] if the predicate is true, else [false_fn()]. *)
Definition smart_cond_definite : Prop :=
  ∀ (b : bool) (true_fn false_fn : M W value) st,
    smart_cond (VBool b) true_fn false_fn st
    = (if b then true_fn else false_fn) st.

(** [smart_cond] as a conditional: after it has looked at the predicate
    (which may act on the framework's world) it either raises or is the run of
    one of the two functions. *)
Definition smart_cond_selects : Prop :=
  ∀ pred (true_fn false_fn : M W value) st,
    ∃ w, smart_cond pred true_fn false_fn st = true_fn (State (heap st) w)
       ∨ smart_cond pred true_fn false_fn st = false_fn (State (heap st) w)
       ∨ ∃ e, smart_cond pred true_fn false_fn st = (Raise e, State (heap st) w).

End Vocabulary.

(** ** A small framework to run the module on

    Enough of Keras to execute the methods on concrete inputs: variables are
    recorded as they are created, [Layer.__init__] refuses keywords it does
    not know, quantizers are the objects whose class derives from
    [Quantizer]. *)

Module Mock.

Record world : Type := World {
  variables : list weight_spec;
  phase : value;
  layer_kwargs : gmap loc (gmap string value);
  next_id : positive
}.

Definition allowed_kwargs : list string :=
  ["name"; "trainable"; "dtype"; "dynamic"; "input_shape";
   "batch_input_shape"; "batch_size"; "weights"; "activity_regularizer";
   "autocast"].

Definition Variable_mro : list string := ["Variable"; "object"].

Definition variable_ref (w : world) : value :=
  VObj Variable_mro (Pos.of_succ_nat (length (variables w))).

Definition create_variable (spec : weight_spec) (w : world) : value * world :=
  (variable_ref w,
   World (variables w ++ [spec]) (phase w) (layer_kwargs w) (next_id w)).

Definition init (self : loc) (kwargs : gmap string value) (w : world)
    : outcome unit * world :=
  if forallb (λ k, bool_decide (k ∈ allowed_kwargs)) (map fst (map_to_list kwargs))
  then (Return tt,
        World (variables w) (phase w) (<[self := kwargs]> (layer_kwargs w))
              (next_id w))
  else (Raise (TypeError "Keyword argument not understood"), w).

Definition name (self : loc) (w : world) : outcome value * world :=
  match layer_kwargs w !! self ≫= (.!! "name") with
  | Some n => (Return n, w)
  | None => (Return (VStr "quantize_layer"), w)
  end.

Definition add_weight (self : loc) (spec : weight_spec) (w : world)
    : outcome value * world :=
  let '(v, w') := create_variable spec w in (Return v, w').

Definition base_config (self : loc) (w : world)
    : outcome (gmap string value) * world :=
  (Return (default ∅ (layer_kwargs w !! self)), w).

Definition cond (pred : value) (true_fn false_fn : M world value)
    : M world value :=
  match pred with
  | VBool b => if b then true_fn else false_fn
  | VInt 1 => true_fn
  | VInt 0 => false_fn
  | _ => raise (TypeError "`pred` must be a Tensor, or a Python bool, or 1 or 0")
  end.

Definition quantizer_build (q shape name : value) (layer : loc) (w : world)
    : outcome value * world :=
  if isinstance q Quantizer then
    let '(mn, w1) := create_variable (WeightSpec "min" (Constant (-6)) float32 false) w in
    let '(mx, w2) := create_variable (WeightSpec "max" (Constant 6) float32 false) w1 in
    (Return (VTuple [mn; mx]), w2)
  else (Raise (AttributeError "build"), w).

(** No object of this framework is iterable. *)
Definition not_iterable (v : value) (w : world) : outcome (list value) * world :=
  (Raise (TypeError "object is not iterable"), w).

(** The quantizer of this framework returns what it was called with. *)
Definition quantizer_call (q inputs step training : value)
    (kwargs : gmap string value) (w : world) : outcome value * world :=
  if isinstance q Quantizer then
    (Return (VTuple [inputs; step; training;
                     default VNone (kwargs !! "min_var");
                     default VNone (kwargs !! "max_var")]), w)
  else (Raise (TypeError "object is not callable"), w).

Definition serialize (v : value) (w : world) : outcome value * world :=
  match v with
  | VObj (cls :: _) _ => (Return (VStr cls), w)
  | _ => (Raise (ValueError "Cannot serialize"), w)
  end.

Definition deserialize (v : value) (module_objects : list string)
    (custom_objects : value) (w : world) : outcome value * world :=
  match v with
  | VStr cls =>
      if bool_decide (cls ∈ ["LastValueQuantizer"; "MovingAverageQuantizer"])
      then (Return (VObj [cls; Quantizer; "object"] (next_id w)),
            World (variables w) (phase w) (layer_kwargs w) (Pos.succ (next_id w)))
      else (Raise (ValueError "Unknown object"), w)
  | _ => (Raise (ValueError "Could not interpret serialized object"), w)
  end.

#[global] Instance keras : Framework world := {
  Layer_init := init;
  Layer_name := name;
  Layer_add_weight := add_weight;
  Layer_get_config := base_config;
  learning_phase := λ w, (Return (phase w), w);
  smart_cond := cond;
  Quantizer_build := quantizer_build;
  Object_iter := not_iterable;
  Quantizer_call := quantizer_call;
  serialize_keras_object := serialize;
  deserialize_keras_object := deserialize
}.

(** Inputs for the examples. *)
Definition w0 : world := World [] (VBool false) ∅ 100.

Definition st0 : state world := State ∅ w0.

Definition last_value : value :=
  VObj ["LastValueQuantizer"; Quantizer; "object"] 7.

Definition tensor : value := VObj ["Tensor"; "object"] 8.

Definition shape : value := VTuple [VNone; VInt 4].

Definition variable (n : positive) : value := VObj Variable_mro n.

(** A layer at address 1, allocated, then constructed, then built. *)
Definition allocated : state world := State {[ 1%positive := ∅ ]} w0.

Definition constructed : state world :=
  (QuantizeLayer.new last_value {[ "name" := VStr "quant" ]} st0).2.

Definition built_layer : state world :=
  (QuantizeLayer.build 1 shape constructed).2.

(** A configuration dictionary at address 5. *)
Definition with_config : state world :=
  State {[ 5%positive := {[ "quantizer" := VStr "LastValueQuantizer";
                            "name" := VStr "quant" ]} ]} w0.

End Mock.

(** ** Frameworks that misbehave

    Variants of the small framework, to run the module where a collaborator
    fails: a quantizer whose [build] returns three variables, a layer whose
    [add_weight] raises, a deserializer that returns an object that is no
    quantizer.  They are passed explicitly where they are used. *)

Module Faulty.

Definition build_triple (q shape name : value) (layer : loc) (w : Mock.world)
    : outcome value * Mock.world :=
  let '(mn, w1) := Mock.create_variable (WeightSpec "min" (Constant (-6)) float32 false) w in
  let '(mx, w2) := Mock.create_variable (WeightSpec "max" (Constant 6) float32 false) w1 in
  let '(sc, w3) := Mock.create_variable (WeightSpec "scale" (Constant 1) float32 false) w2 in
  (Return (VTuple [mn; mx; sc]), w3).

Definition triple : Framework Mock.world := {|
  Layer_init := Mock.init;
  Layer_name := Mock.name;
  Layer_add_weight := Mock.add_weight;
  Layer_get_config := Mock.base_config;
  learning_phase := λ w, (Return (Mock.phase w), w);
  smart_cond := Mock.cond;
  Quantizer_build := build_triple;
  Object_iter := Mock.not_iterable;
  Quantizer_call := Mock.quantizer_call;
  serialize_keras_object := Mock.serialize;
  deserialize_keras_object := Mock.deserialize
|}.

Definition add_weight_fails (self : loc) (spec : weight_spec) (w : Mock.world)
    : outcome value * Mock.world :=
  (Raise (FrameworkError "ResourceExhaustedError" "out of memory"), w).

Definition no_weights : Framework Mock.world := {|
  Layer_init := Mock.init;
  Layer_name := Mock.name;
  Layer_add_weight := add_weight_fails;
  Layer_get_config := Mock.base_config;
  learning_phase := λ w, (Return (Mock.phase w), w);
  smart_cond := Mock.cond;
  Quantizer_build := Mock.quantizer_build;
  Object_iter := Mock.not_iterable;
  Quantizer_call := Mock.quantizer_call;
  serialize_keras_object := Mock.serialize;
  deserialize_keras_object := Mock.deserialize
|}.

Definition deserialize_dense (v : value) (module_objects : list string)
    (custom_objects : value) (w : Mock.world) : outcome value * Mock.world :=
  (Return (VObj ["Dense"; "Layer"; "object"] (Mock.next_id w)),
   Mock.World (Mock.variables w) (Mock.phase w) (Mock.layer_kwargs w)
     (Pos.succ (Mock.next_id w))).

Definition any_object : Framework Mock.world := {|
  Layer_init := Mock.init;
  Layer_name := Mock.name;
  Layer_add_weight := Mock.add_weight;
  Layer_get_config := Mock.base_config;
  learning_phase := λ w, (Return (Mock.phase w), w);
  smart_cond := Mock.cond;
  Quantizer_build := Mock.quantizer_build;
  Object_iter := Mock.not_iterable;
  Quantizer_call := Mock.quantizer_call;
  serialize_keras_object := Mock.serialize;
  deserialize_keras_object := deserialize_dense
|}.

(** A quantizer whose [build] returns its two variables in a list, and the
    iteration of that list. *)
Definition list_of_variables : value := VObj ["list"; "object"] 50.

Definition build_list (q shape name : value) (layer : loc) (w : Mock.world)
    : outcome value * Mock.world :=
  let '(mn, w1) := Mock.create_variable (WeightSpec "min" (Constant (-6)) float32 false) w in
  let '(mx, w2) := Mock.create_variable (WeightSpec "max" (Constant 6) float32 false) w1 in
  (Return list_of_variables, w2).

Definition iter_list (v : value) (w : Mock.world)
    : outcome (list value) * Mock.world :=
  match v with
  | VObj ["list"; "object"] 50 => (Return [Mock.variable 1; Mock.variable 2], w)
  | _ => (Raise (TypeError "object is not iterable"), w)
  end.

Definition pair_in_a_list : Framework Mock.world := {|
  Layer_init := Mock.init;
  Layer_name := Mock.name;
  Layer_add_weight := Mock.add_weight;
  Layer_get_config := Mock.base_config;
  learning_phase := λ w, (Return (Mock.phase w), w);
  smart_cond := Mock.cond;
  Quantizer_build := build_list;
  Object_iter := iter_list;
  Quantizer_call := Mock.quantizer_call;
  serialize_keras_object := Mock.serialize;
  deserialize_keras_object := Mock.deserialize
|}.

(** A dictionary at address 5 that has no entry [quantizer]. *)
Definition without_quantizer : state Mock.world :=
  State {[ 5%positive := {[ "name" := VStr "quant" ]} ]} Mock.w0.

End Faulty.

(** ** A framework in graph mode

    [smart_cond] as TensorFlow has it when the predicate is a symbolic
    tensor: both functions are run, to trace them, and the value returned is
    a new tensor, the conditional of the two results.  On a Python [bool] it
    runs the one function. *)

Module Graph.

Definition Tensor_mro : list string := ["Tensor"; "object"].

Definition new_tensor (w : Mock.world) : value * Mock.world :=
  (VObj Tensor_mro (Mock.next_id w),
   Mock.World (Mock.variables w) (Mock.phase w) (Mock.layer_kwargs w)
     (Pos.succ (Mock.next_id w))).

Definition cond (pred : value) (true_fn false_fn : M Mock.world value)
    : M Mock.world value :=
  match pred with
  | VBool b => if b then true_fn else false_fn
  | VObj _ _ =>
      _ ← true_fn;
      _ ← false_fn;
      framework (λ w, let '(t, w') := new_tensor w in (Return t, w'))
  | _ => raise (TypeError "`pred` must be a Tensor, or a Python bool, or 1 or 0")
  end.

Definition keras : Framework Mock.world := {|
  Layer_init := Mock.init;
  Layer_name := Mock.name;
  Layer_add_weight := Mock.add_weight;
  Layer_get_config := Mock.base_config;
  learning_phase := λ w, (Return (Mock.phase w), w);
  smart_cond := cond;
  Quantizer_build := Mock.quantizer_build;
  Object_iter := Mock.not_iterable;
  Quantizer_call := Mock.quantizer_call;
  serialize_keras_object := Mock.serialize;
  deserialize_keras_object := Mock.deserialize
|}.

(** A symbolic training flag. *)
Definition training_placeholder : value := VObj Tensor_mro 9.

End Graph.

(** ** Properties *)

Import QuantizeLayer.

(** Runs the monadic plumbing of a goal. *)
Ltac run :=
  unfold mbind, M_bind, mret, M_ret, bind, ret, raise, framework,
    getattr, setattr, alloc, dict_copy, dict_pop, dict_entries in *;
  simpl in *.

Section Properties.
Context {W : Type} `{!Framework W}.

Implicit Types (st : state W) (self : loc) (v quantizer : value).

Lemma isinstance_None cls : cls ≠ "NoneType" → cls ≠ "object" → isinstance VNone cls = false.
Proof.
  intros H1 H2. unfold isinstance. apply bool_decide_eq_false. simpl.
  rewrite !elem_of_cons. intros [?|[?|Hnil]]; [done | done |].
  by apply elem_of_nil in Hnil.
Qed.

Lemma None_is_no_Quantizer : isinstance VNone Quantizer = false.
Proof. by apply isinstance_None. Qed.

Lemma is_None_spec v : is_None v = true ↔ v = VNone.
Proof. destruct v; simpl; split; congruence. Qed.

(** What [__init__] does once the base class has accepted the keywords. *)
Lemma init_after_base self quantizer kwargs st w1 :
  Layer_init self kwargs (world st) = (Return tt, w1) →
  __init__ self quantizer kwargs st =
    if is_None quantizer || negb (isinstance quantizer Quantizer) then
      (Raise (ValueError
         "quantizer should not be None, and should be an instanceof `tfmot.quantization.keras.Quantizer`."),
       State (heap st) w1)
    else
      (Return tt, State (alter <["quantizer" := quantizer]> self (heap st)) w1).
Proof.
  intros Hbase. unfold __init__. run. rewrite Hbase.
  by destruct (is_None quantizer || negb (isinstance quantizer Quantizer)).
Qed.

(** An exception of the base class constructor leaves [__init__] as it is. *)
Lemma init_base_raises self quantizer kwargs st e w1 :
  Layer_init self kwargs (world st) = (Raise e, w1) →
  __init__ self quantizer kwargs st = (Raise e, State (heap st) w1).
Proof. intros Hbase. unfold __init__. run. by rewrite Hbase. Qed.

(** C1, as amended. Once the base class constructor has returned (it runs
    first, and what it raises is the outcome), [__init__] raises a
    [ValueError] exactly when [quantizer] is [None] or is not an instance of
    [Quantizer]; otherwise it returns, and the attribute [quantizer] of the
    layer is then the very object that was passed. *)
Theorem init_rejects_exactly_invalid_quantizers
    self quantizer kwargs st attrs w1 :
  heap st !! self = Some attrs →
  Layer_init self kwargs (world st) = (Return tt, w1) →
  ((∃ msg st', __init__ self quantizer kwargs st = (Raise (ValueError msg), st'))
     ↔ quantizer = VNone ∨ isinstance quantizer Quantizer = false)
  ∧ (quantizer ≠ VNone → isinstance quantizer Quantizer = true →
       ∃ st', __init__ self quantizer kwargs st = (Return tt, st'))
  ∧ (∀ st', __init__ self quantizer kwargs st = (Return tt, st') →
       getattr self "quantizer" st' = (Return quantizer, st')).
Proof.
  intros Hself Hbase. rewrite (init_after_base _ _ _ _ _ Hbase).
  destruct (is_None quantizer) eqn:Hnone; simpl.
  - apply is_None_spec in Hnone as ->. repeat split.
    + auto.
    + intros _. eauto.
    + done.
    + intros st' [=].
  - destruct (isinstance quantizer Quantizer) eqn:Hinst; simpl.
    + repeat split.
      * intros (msg & st' & [=]).
      * intros [-> | [=]]. done.
      * eauto.
      * intros st' [= <-]. run.
        rewrite lookup_alter_eq, Hself. simpl. by rewrite lookup_insert_eq.
    + repeat split.
      * auto.
      * intros _. eauto.
      * intros _ [=].
      * intros st' [=].
Qed.

(** *** Running a computation *)

Lemma bind_Return {A B} (m : M W A) (k : A → M W B) st b st' :
  (a ← m; k a) st = (Return b, st')
  ↔ ∃ a st1, m st = (Return a, st1) ∧ k a st1 = (Return b, st').
Proof.
  unfold mbind, M_bind, bind. destruct (m st) as [[a|e] st1]; split.
  - intros Hk. by exists a, st1.
  - by intros (? & ? & [= <- <-] & ?).
  - done.
  - by intros (? & ? & [=] & _).
Qed.

Lemma bind_Raise {A B} (m : M W A) (k : A → M W B) st e st' :
  (a ← m; k a) st = (Raise e, st')
  ↔ m st = (Raise e, st')
    ∨ ∃ a st1, m st = (Return a, st1) ∧ k a st1 = (Raise e, st').
Proof.
  unfold mbind, M_bind, bind. destruct (m st) as [[a|e0] st1]; split.
  - intros Hk. right. by exists a, st1.
  - by intros [[=] | (? & ? & [= <- <-] & ?)].
  - intros [= -> ->]. by left.
  - intros [[= -> ->] | (a & st2 & Hm & _)]; [done | discriminate Hm].
Qed.

Lemma bind_run {A B} (m : M W A) (k : A → M W B) st a st1 :
  m st = (Return a, st1) → (x ← m; k x) st = k a st1.
Proof. intros Hm. unfold mbind, M_bind, bind. by rewrite Hm. Qed.

Lemma framework_Return {A} (f : W → outcome A * W) st a w :
  f (world st) = (Return a, w) → framework f st = (Return a, State (heap st) w).
Proof. intros Hf. unfold framework. by rewrite Hf. Qed.

Lemma getattr_run self name attrs v st :
  heap st !! self = Some attrs → attrs !! name = Some v →
  getattr self name st = (Return v, st).
Proof. intros Hself Hv. unfold getattr. rewrite Hself. simpl. by rewrite Hv. Qed.

Lemma framework_heap {A} (f : W → outcome A * W) st :
  heap (framework f st).2 = heap st.
Proof. unfold framework. by destruct (f (world st)). Qed.

Lemma framework_run {A} (f : W → outcome A * W) st r st' :
  framework f st = (r, st') ↔ f (world st) = (r, world st') ∧ heap st' = heap st.
Proof.
  unfold framework. destruct (f (world st)) as [r0 w0], st' as [h' w'].
  simpl. split.
  - by intros [= -> <- ->].
  - by intros [[= -> ->] ->].
Qed.

(** *** The forward computation *)

Lemma dict_vars_entries (min_var max_var : value) :
  _dict_vars min_var max_var = {[ "min_var" := min_var; "max_var" := max_var ]}.
Proof.
  unfold _dict_vars, dict. simpl. by apply insert_insert_ne.
Qed.

Lemma built_heap self q step mn mx st (w : W) :
  built self q step mn mx st → built self q step mn mx (State (heap st) w).
Proof. intros (a & ?). by exists a. Qed.

(** On a built layer the closure is the call of the stored quantizer on the
    stored variables. *)
Lemma quantizer_fn_built self inputs train_var q step mn mx st :
  built self q step mn mx st →
  _make_quantizer_fn self inputs train_var st
  = framework (Quantizer_call q inputs step (VBool train_var)
                 {[ "min_var" := mn; "max_var" := mx ]}) st.
Proof.
  intros (a & Ha & Hq & Hs & Hmn & Hmx).
  unfold _make_quantizer_fn, getattr, mbind, M_bind, bind.
  repeat (first [rewrite Ha | rewrite Hq | rewrite Hs | rewrite Hmn | rewrite Hmx];
          cbn [mbind option_bind]).
  by rewrite dict_vars_entries.
Qed.

(** C2. With a definite boolean [training] (and [smart_cond] behaving on
    booleans as documented), [call] on a built layer is one call of the
    stored quantizer whose training argument is that boolean: training mode
    when it is [True], inference mode when it is [False]. *)
Theorem call_definite_training_selects_mode
    self inputs (training : bool) q step mn mx st :
  smart_cond_definite →
  built self q step mn mx st →
  call self inputs (VBool training) st
  = framework (Quantizer_call q inputs step (VBool training)
                 {[ "min_var" := mn; "max_var" := mx ]}) st.
Proof.
  intros Hcond Hbuilt. unfold call. run. rewrite Hcond.
  destruct training; by apply quantizer_fn_built.
Qed.

(** C3, as amended. On a built layer each of the two closures of [call]
    is the call of the stored quantizer on [inputs], the layer's
    [optimizer_step], its training flag and the layer's [min_var] and
    [max_var]; what [call] returns is what [smart_cond] returned for the
    training flag (the learning phase when [training] is [None]) and these
    two closures, with nothing done to it.  Where [smart_cond] is a
    conditional, so that it runs one closure and returns its result, the
    value [call] returns is the value that this call of the quantizer
    returned, and the attributes of the layer are as before. *)
Theorem call_returns_what_smart_cond_returns
    self inputs training q step mn mx st :
  built self q step mn mx st →
  (∀ (train_var : bool) st1,
     heap st1 = heap st →
     _make_quantizer_fn self inputs train_var st1
     = framework (Quantizer_call q inputs step (VBool train_var)
                    {[ "min_var" := mn; "max_var" := mx ]}) st1)
  ∧ (∀ v st',
       call self inputs training st = (Return v, st') →
       ∃ flag w,
         (if is_None training
          then learning_phase (world st) = (Return flag, w)
          else flag = training ∧ w = world st)
         ∧ smart_cond flag (_make_quantizer_fn self inputs true)
             (_make_quantizer_fn self inputs false) (State (heap st) w)
           = (Return v, st'))
  ∧ (smart_cond_selects →
     ∀ v st',
       call self inputs training st = (Return v, st') →
       ∃ (train_var : bool) w,
         Quantizer_call q inputs step (VBool train_var)
           {[ "min_var" := mn; "max_var" := mx ]} w = (Return v, world st')
         ∧ heap st' = heap st).
Proof.
  intros Hbuilt.
  assert (∀ (train_var : bool) st1,
     heap st1 = heap st →
     _make_quantizer_fn self inputs train_var st1
     = framework (Quantizer_call q inputs step (VBool train_var)
                    {[ "min_var" := mn; "max_var" := mx ]}) st1) as Hfn.
  { intros train_var [h1 w1] Hheap. simpl in Hheap. subst h1.
    apply quantizer_fn_built. by apply built_heap. }
  assert (∀ v st',
       call self inputs training st = (Return v, st') →
       ∃ flag w,
         (if is_None training
          then learning_phase (world st) = (Return flag, w)
          else flag = training ∧ w = world st)
         ∧ smart_cond flag (_make_quantizer_fn self inputs true)
             (_make_quantizer_fn self inputs false) (State (heap st) w)
           = (Return v, st')) as Hcall.
  { intros v st' (flag & st1 & Hflag & Hrun)%bind_Return.
    exists flag, (world st1). destruct (is_None training).
    - apply framework_run in Hflag as [Hphase Hheap].
      split; [done |]. rewrite <- Hheap. by destruct st1.
    - injection Hflag as <- <-. split; [done |]. by destruct st. }
  split; [exact Hfn |]. split; [exact Hcall |].
  intros Hsel v st' (flag & w & _ & Hrun)%Hcall. revert Hrun.
  destruct (Hsel flag (_make_quantizer_fn self inputs true)
                 (_make_quantizer_fn self inputs false) (State (heap st) w))
    as (w' & [-> | [-> | (e & ->)]]); [| |done].
  - rewrite Hfn by done. intros [Hrun Hheap]%framework_run.
    exists true, w'. by rewrite Hheap.
  - rewrite Hfn by done. intros [Hrun Hheap]%framework_run.
    exists false, w'. by rewrite Hheap.
Qed.

Lemma preserves_bind {A B} (I : state W → Prop) (m : M W A) (k : A → M W B) :
  preserves I m → (∀ a, preserves I (k a)) → preserves I (a ← m; k a).
Proof.
  intros Hm Hk st HI. unfold mbind, M_bind, bind.
  specialize (Hm st HI). destruct (m st) as [[a|e] st1]; simpl in *.
  - by apply Hk.
  - done.
Qed.

Lemma preserves_getattr (I : state W → Prop) self name :
  preserves I (getattr self name).
Proof.
  intros st HI. unfold getattr. by destruct (heap st !! self ≫= _).
Qed.

Lemma preserves_quantizer_fn (I : state W → Prop) self inputs train_var :
  (∀ q x s t kw, preserves I (framework (Quantizer_call q x s t kw))) →
  preserves I (_make_quantizer_fn self inputs train_var).
Proof.
  intros Hq. unfold _make_quantizer_fn.
  repeat (apply preserves_bind; [apply preserves_getattr | intros ?]).
  apply Hq.
Qed.

(** C5. [call] changes nothing by itself.  Every property of the state that
    [learning_phase], the quantizer's [__call__] and [smart_cond] keep is
    kept by [call]; and with [smart_cond] a conditional, the attribute
    dictionaries after [call] are the ones before it, so the layer's
    [quantizer], [min_var], [max_var] and [optimizer_step] are the same
    objects. *)
Theorem call_changes_only_through_its_callees self inputs training :
  (∀ I : state W → Prop,
     preserves I (framework learning_phase) →
     (∀ q x s t kw, preserves I (framework (Quantizer_call q x s t kw))) →
     (∀ p (t f : M W value),
        preserves I t → preserves I f → preserves I (smart_cond p t f)) →
     preserves I (call self inputs training))
  ∧ (smart_cond_selects →
     ∀ st, heap (call self inputs training st).2 = heap st).
Proof.
  assert (∀ I : state W → Prop,
     preserves I (framework learning_phase) →
     (∀ q x s t kw, preserves I (framework (Quantizer_call q x s t kw))) →
     (∀ p (t f : M W value),
        preserves I t → preserves I f → preserves I (smart_cond p t f)) →
     preserves I (call self inputs training)) as Hgen.
  { intros I Hphase Hq Hcond. unfold call. apply preserves_bind.
    - destruct (is_None training); [done | by intros st HI].
    - intros p. apply Hcond; by apply preserves_quantizer_fn. }
  split; [exact Hgen |].
  intros Hsel st.
  apply (Hgen (λ s, heap s = heap st)); [| | | done].
  - intros s Hs. by rewrite framework_heap.
  - intros q x s t kw s0 Hs. by rewrite framework_heap.
  - intros p t f Ht Hf s Hs.
    destruct (Hsel p t f s) as (w & [-> | [-> | (e & ->)]]).
    + by apply Ht.
    + by apply Hf.
    + done.
Qed.

(** C7. On a built layer an exception of [call] is an exception that
    [learning_phase] raised or one that came out of [smart_cond]; and the
    closures handed to [smart_cond] raise on a built layer only what the
    quantizer's [__call__] raises.  No attribute read of [call] fails. *)
Theorem call_raises_only_what_its_callees_raise
    self inputs training q step mn mx st e st' :
  built self q step mn mx st →
  call self inputs training st = (Raise e, st') →
  ((training = VNone
      ∧ learning_phase (world st) = (Raise e, world st')
      ∧ heap st' = heap st)
   ∨ ∃ pred w,
       smart_cond pred (_make_quantizer_fn self inputs true)
         (_make_quantizer_fn self inputs false) (State (heap st) w)
       = (Raise e, st'))
  ∧ (∀ (train_var : bool) st1 e1 st1',
       heap st1 = heap st →
       _make_quantizer_fn self inputs train_var st1 = (Raise e1, st1') →
       Quantizer_call q inputs step (VBool train_var)
         {[ "min_var" := mn; "max_var" := mx ]} (world st1)
       = (Raise e1, world st1')
       ∧ heap st1' = heap st1).
Proof.
  intros Hbuilt Hcall. split.
  - apply bind_Raise in Hcall as [Hflag | (p & st1 & Hflag & Hcond)].
    + left. destruct (is_None training) eqn:Hnone; [| done].
      apply is_None_spec in Hnone. by apply framework_run in Hflag as [? ?].
    + right. exists p, (world st1).
      assert (heap st1 = heap st) as <-.
      { destruct (is_None training).
        - by apply framework_run in Hflag as [_ ?].
        - by injection Hflag as _ <-. }
      by destruct st1.
  - intros train_var st1 e1 st1' Hheap.
    rewrite (quantizer_fn_built _ _ train_var q step mn mx).
    + by intros ?%framework_run.
    + destruct st1 as [h1 w1]. simpl in Hheap. subst h1. by apply built_heap.
Qed.

(** C8. With [training] equal to [None], [call] reads the learning phase
    and goes on with it as the predicate of [smart_cond], in the world as
    that read left it: it is [call] with the learning phase for [training].
    If reading the learning phase raises, [call] raises the same. *)
Theorem call_without_training_uses_learning_phase self inputs st :
  (∀ flag w,
     learning_phase (world st) = (Return flag, w) →
     call self inputs VNone st
     = smart_cond flag (_make_quantizer_fn self inputs true)
         (_make_quantizer_fn self inputs false) (State (heap st) w)
     ∧ (flag ≠ VNone →
        call self inputs VNone st = call self inputs flag (State (heap st) w)))
  ∧ (∀ e w,
       learning_phase (world st) = (Raise e, w) →
       call self inputs VNone st = (Raise e, State (heap st) w)).
Proof.
  split.
  - intros flag w Hphase. unfold call at 1. run. rewrite Hphase.
    split; [done |]. intros Hflag. unfold call. run. rewrite Hphase.
    by destruct flag.
  - intros e w Hphase. unfold call. run. by rewrite Hphase.
Qed.

(** *** Construction and [build] *)

Lemma getattr_Return self name st v st' :
  getattr self name st = (Return v, st')
  ↔ st' = st ∧ ∃ attrs, heap st !! self = Some attrs ∧ attrs !! name = Some v.
Proof.
  unfold getattr. destruct (heap st !! self) as [attrs|] eqn:Hself; simpl.
  - destruct (attrs !! name) as [v0|] eqn:Hname; split.
    + intros [= -> ->]. eauto.
    + intros [-> (a & [= <-] & Hv)]. congruence.
    + done.
    + intros [_ (a & [= <-] & Hv)]. congruence.
  - split; [done |]. by intros [_ (a & [=] & _)].
Qed.

Lemma iterate_heap v st : heap (iterate v st).2 = heap st.
Proof. destruct v; try done. apply framework_heap. Qed.

Lemma iterate_run v st r st' :
  iterate v st = (r, st') → heap st' = heap st.
Proof. intros Hrun. by rewrite <- (iterate_heap v st), Hrun. Qed.

Lemma unpack2_Return v st (a b : value) st' :
  unpack2 v st = (Return (a, b), st') ↔ iterate v st = (Return [a; b], st').
Proof.
  unfold unpack2, mbind, M_bind, bind.
  destruct (iterate v st) as [[items|e] st1]; [| done].
  destruct items as [|x [|y [|z items]]]; try done.
  split; by intros [= -> -> ->].
Qed.

Lemma alter_Some {A} (f : A → A) (m : gmap loc A) l a :
  m !! l = Some a → alter f l m = <[l := f a]> m.
Proof.
  intros Hl. apply map_eq. intros l'.
  destruct (decide (l = l')) as [<-|Hne].
  - by rewrite lookup_alter_eq, lookup_insert_eq, Hl.
  - by rewrite lookup_alter_ne, lookup_insert_ne.
Qed.

(** What a run of [build] that returns has done. *)
Lemma build_Return self input_shape st st' :
  build self input_shape st = (Return tt, st') →
  ∃ attrs quantizer name vars min_var max_var step w1 w2 w3,
    heap st !! self = Some attrs
    ∧ attrs !! "quantizer" = Some quantizer
    ∧ Layer_name self (world st) = (Return name, w1)
    ∧ Quantizer_build quantizer input_shape name self w1 = (Return vars, w2)
    ∧ iterate vars (State (heap st) w2)
      = (Return [min_var; max_var], State (heap st) w3)
    ∧ Layer_add_weight self
        (WeightSpec "optimizer_step" (Constant (-1)) int32 false) w3
      = (Return step, world st')
    ∧ heap st' = <[self := <["optimizer_step" := step]>
                             (<["max_var" := max_var]>
                                (<["min_var" := min_var]> attrs))]> (heap st).
Proof.
  unfold build.
  intros (q & st1 & [-> (attrs & Hself & Hq)]%getattr_Return & H1)%bind_Return.
  apply bind_Return in H1 as (name & st2 & [Hname Hh2]%framework_run & H2).
  apply bind_Return in H2 as (vars & st3 & [Hbuild Hh3]%framework_run & H3).
  apply bind_Return in H3 as ([mn mx] & st4 & Hiter%unpack2_Return & H4).
  pose proof (iterate_run _ _ _ _ Hiter) as Hh4.
  apply bind_Return in H4 as ([] & st5 & [= <-] & H5).
  apply bind_Return in H5 as ([] & st6 & [= <-] & H6).
  apply bind_Return in H6 as (step & st7 & [Hadd Hh7]%framework_run & H7).
  injection H7 as <-. simpl in *.
  destruct st3 as [h3 w3], st4 as [h4 w4]. simpl in *. subst h3 h4.
  rewrite Hh2 in Hiter.
  exists attrs, q, name, vars, mn, mx, step, (world st2), w3, w4.
  repeat split; try done.
  rewrite Hh7, Hh2.
  rewrite (alter_Some <["min_var" := mn]> _ _ _ Hself).
  rewrite (alter_Some <["max_var" := mx]> _ _ (<["min_var" := mn]> attrs))
    by apply lookup_insert_eq.
  rewrite (alter_Some <["optimizer_step" := step]> _ _
             (<["max_var" := mx]> (<["min_var" := mn]> attrs)))
    by apply lookup_insert_eq.
  by rewrite !insert_insert_eq.
Qed.

Lemma fresh_unused (h : gmap loc (gmap string value)) : h !! fresh (dom h) = None.
Proof. apply not_elem_of_dom, is_fresh. Qed.

(** What a construction that returns has done. *)
Lemma new_Return quantizer kwargs st self st' :
  new quantizer kwargs st = (Return self, st') →
  self = fresh (dom (heap st))
  ∧ isinstance quantizer Quantizer = true
  ∧ ∃ w1, Layer_init self kwargs (world st) = (Return tt, w1)
        ∧ st' = State (<[self := {[ "quantizer" := quantizer ]}]> (heap st)) w1.
Proof.
  unfold new.
  intros (l & st1 & [= <- <-] & H1)%bind_Return.
  apply bind_Return in H1 as ([] & st2 & Hinit & [= <- <-]).
  split; [done |]. revert Hinit.
  destruct (Layer_init (fresh (dom (heap st))) kwargs (world st))
    as [[[]|e] w1] eqn:Hbase.
  - rewrite (init_after_base _ _ _ _ w1) by done. simpl.
    destruct (is_None quantizer); [done |].
    destruct (isinstance quantizer Quantizer); [| done]. simpl.
    intros [= <-]. split; [done |]. exists w1. split; [done |]. f_equal.
    rewrite (alter_Some _ _ _ ∅) by apply lookup_insert_eq.
    by rewrite insert_insert_eq.
  - by rewrite (init_base_raises _ _ _ _ e w1).
Qed.



(** A layer that was constructed and built is [built]. *)
Lemma build_makes_built quantizer kwargs input_shape st0 self st st' :
  new quantizer kwargs st0 = (Return self, st) →
  build self input_shape st = (Return tt, st') →
  ∃ step min_var max_var, built self quantizer step min_var max_var st'.
Proof.
  intros (-> & _ & w & _ & ->)%new_Return Hbuild.
  apply build_Return in Hbuild
    as (attrs & q & name & vars & mn & mx & step & w1 & w2 & w3
        & Hself & Hq & _ & _ & _ & _ & Hheap).
  simpl in *. rewrite lookup_insert_eq in Hself. injection Hself as <-.
  exists step, mn, mx. eexists. rewrite Hheap, lookup_insert_eq.
  split; [done |]. by vm_compute.
Qed.

(** C9. After [build] the attribute [optimizer_step] is the weight that
    [add_weight] returned, as its last action on the framework's world, for
    the name [optimizer_step], the initializer [Constant(-1)], the dtype
    [int32] (an integer type of 32 bits) and [trainable=False]. *)
Theorem build_optimizer_step_is_int32_weight_from_minus_one
    self input_shape st st' :
  build self input_shape st = (Return tt, st') →
  ∃ spec step w,
    Layer_add_weight self spec w = (Return step, world st')
    ∧ getattr self "optimizer_step" st' = (Return step, st')
    ∧ w_name spec = "optimizer_step"
    ∧ w_initializer spec = Constant (-1)
    ∧ w_dtype spec = int32
    ∧ dtype_is_integer (w_dtype spec) = true
    ∧ dtype_bits (w_dtype spec) = 32%Z
    ∧ w_trainable spec = false.
Proof.
  intros (attrs & q & name & vars & mn & mx & step & w1 & w2 & w3
          & Hself & Hq & Hname & Hqb & Hiter & Hadd & Hheap)%build_Return.
  exists (WeightSpec "optimizer_step" (Constant (-1)) int32 false), step, w3.
  repeat split; try done.
  unfold getattr. rewrite Hheap, lookup_insert_eq. simpl.
  by rewrite lookup_insert_eq.
Qed.

(** *** Configuration *)

Lemma foldl_insert_items (kvs : list (string * value)) (d : gmap string value) :
  NoDup kvs.*1 →
  foldl (λ d kv, <[kv.1 := kv.2]> d) d kvs = list_to_map kvs ∪ d.
Proof.
  revert d. induction kvs as [|[k x] kvs IH]; intros d Hnodup.
  - simpl. by rewrite (left_id_L ∅ (∪)).
  - rewrite fmap_cons in Hnodup. apply NoDup_cons in Hnodup as [Hk Hnodup].
    cbn [foldl list_to_map foldr]. rewrite IH by done. simpl.
    rewrite <- insert_union_l. symmetry. apply insert_union_r.
    by apply not_elem_of_list_to_map_1.
Qed.

(** [dict(list(a.items()) + list(b.items()))]: the entries of [b], and
    those of [a] under the other keys. *)
Lemma dict_items_app (a b : gmap string value) :
  dict (items a ++ items b) = b ∪ a.
Proof.
  unfold dict, items. rewrite foldl_app.
  rewrite !foldl_insert_items by apply NoDup_fst_map_to_list.
  by rewrite !list_to_map_to_list, (right_id_L ∅ (∪)).
Qed.

Lemma get_config_dict (base_config : gmap string value) serialized :
  dict (items base_config ++ items (dict [("quantizer", serialized)]))
  = <["quantizer" := serialized]> base_config.
Proof.
  rewrite dict_items_app. unfold dict. simpl.
  by rewrite <- insert_union_l, (left_id_L ∅ (∪)).
Qed.

Lemma get_config_run self attrs quantizer base_config serialized st w1 w2 :
  heap st !! self = Some attrs →
  attrs !! "quantizer" = Some quantizer →
  Layer_get_config self (world st) = (Return base_config, w1) →
  serialize_keras_object quantizer w1 = (Return serialized, w2) →
  get_config self st
  = (Return (fresh (dom (heap st))),
     State (<[fresh (dom (heap st)) := <["quantizer" := serialized]> base_config]>
              (heap st)) w2).
Proof.
  intros Hself Hq Hbase Hser. unfold get_config.
  erewrite bind_run by (by apply framework_Return).
  erewrite bind_run by (by eapply getattr_run).
  erewrite bind_run by (by apply framework_Return).
  by rewrite get_config_dict.
Qed.

Lemma from_config_run config d serialized st :
  heap st !! config = Some d →
  d !! "quantizer" = Some serialized →
  from_config config st
  = (quantizer ← framework (deserialize_keras_object serialized globals VNone);
     new quantizer (delete "quantizer" d))
      (State (<[fresh (dom (heap st)) := delete "quantizer" d]> (heap st))
             (world st)).
Proof.
  intros Hconfig Hq. unfold from_config.
  unfold mbind at 1 2, M_bind, bind, dict_copy, alloc, dict_pop.
  rewrite Hconfig. simpl. rewrite lookup_insert_eq. simpl. rewrite Hq.
  rewrite (alter_Some _ _ _ d) by apply lookup_insert_eq.
  rewrite insert_insert_eq.
  unfold mbind, M_bind, bind, framework, dict_entries. simpl.
  destruct (deserialize_keras_object serialized globals VNone (world st))
    as [[q|e] w]; [| done].
  simpl. by rewrite lookup_insert_eq.
Qed.

(** A construction writes at a new address only. *)
Lemma new_heap quantizer kwargs st :
  ∃ attrs, heap (new quantizer kwargs st).2
           = <[fresh (dom (heap st)) := attrs]> (heap st).
Proof.
  unfold new, __init__. run.
  destruct (Layer_init _ kwargs (world st)) as [[[]|e] w]; simpl.
  - destruct (is_None quantizer || negb (isinstance quantizer Quantizer)); simpl.
    + by exists ∅.
    + exists {[ "quantizer" := quantizer ]}.
      rewrite (alter_Some _ _ _ ∅) by apply lookup_insert_eq.
      by rewrite insert_insert_eq.
  - by exists ∅.
Qed.

(** C6. Let the layer's quantizer serialize to [serialized] and that
    deserialize to [quantizer'], and let the base configuration have no
    entry [quantizer] of its own.  Then [from_config(get_config())] is the
    construction of a layer from [quantizer'] and the keywords of the base
    configuration, in a store that extends the former one: it returns when
    that construction does, and the layer it returns has [quantizer'] for
    its quantizer. *)
Theorem config_round_trip
    self attrs quantizer base_config serialized quantizer' st w1 w2 w3 :
  heap st !! self = Some attrs →
  attrs !! "quantizer" = Some quantizer →
  Layer_get_config self (world st) = (Return base_config, w1) →
  base_config !! "quantizer" = None →
  serialize_keras_object quantizer w1 = (Return serialized, w2) →
  deserialize_keras_object serialized globals VNone w2 = (Return quantizer', w3) →
  ∃ h, heap st ⊆ h
    ∧ (config ← get_config self; from_config config) st
      = new quantizer' base_config (State h w3)
    ∧ (isinstance quantizer' Quantizer = true →
       ∀ w4, Layer_init (fresh (dom h)) base_config w3 = (Return tt, w4) →
       ∃ l st', (config ← get_config self; from_config config) st = (Return l, st'))
    ∧ (∀ l st',
         (config ← get_config self; from_config config) st = (Return l, st') →
         getattr l "quantizer" st' = (Return quantizer', st')).
Proof.
  intros Hself Hq Hbase Hfree Hser Hdeser.
  set (c1 := fresh (dom (heap st))).
  set (h1 := <[c1 := <["quantizer" := serialized]> base_config]> (heap st)).
  set (c2 := fresh (dom h1)).
  set (h2 := <[c2 := base_config]> h1).
  assert ((config ← get_config self; from_config config) st
          = new quantizer' base_config (State h2 w3)) as Hrun.
  { erewrite bind_run by (by eapply get_config_run).
    rewrite (from_config_run c1 (<["quantizer" := serialized]> base_config)
               serialized) by apply lookup_insert_eq.
    erewrite bind_run by (by apply framework_Return).
    simpl. by rewrite delete_insert_id. }
  exists h2. rewrite Hrun. repeat split.
  - etrans; [apply insert_subseteq, fresh_unused |].
    apply insert_subseteq, fresh_unused.
  - intros Hinst w4 Hinit.
    exists (fresh (dom h2)),
      (State (<[fresh (dom h2) := {[ "quantizer" := quantizer' ]}]> h2) w4).
    unfold new.
    erewrite bind_run by reflexivity.
    erewrite bind_run; [reflexivity |].
    rewrite (init_after_base _ _ _ _ w4) by done. simpl.
    assert (is_None quantizer' = false) as ->.
    { by destruct quantizer'. }
    rewrite Hinst. simpl. f_equal. f_equal.
    rewrite (alter_Some _ _ _ ∅) by apply lookup_insert_eq.
    by rewrite insert_insert_eq.
  - intros l st' (-> & _ & w4 & _ & ->)%new_Return.
    eapply getattr_run; [apply lookup_insert_eq | apply lookup_singleton_eq].
Qed.

(** C10. For a dictionary [config] with an entry [quantizer],
    [from_config(config)] leaves the dictionary at [config] as it was,
    however it ends; it pops from a copy at a new address, deserializes the
    popped value, and constructs the layer with keywords that are the
    entries of [config] under every key but [quantizer]. *)
Theorem from_config_works_on_a_copy config d serialized st :
  heap st !! config = Some d →
  d !! "quantizer" = Some serialized →
  heap (from_config config st).2 !! config = Some d
  ∧ ∃ kwargs,
      (∀ k, k ≠ "quantizer" → kwargs !! k = d !! k)
      ∧ kwargs !! "quantizer" = None
      ∧ from_config config st
        = (quantizer ← framework
                         (deserialize_keras_object serialized globals VNone);
           new quantizer kwargs)
            (State (<[fresh (dom (heap st)) := kwargs]> (heap st)) (world st)).
Proof.
  intros Hconfig Hq.
  assert (config ≠ fresh (dom (heap st))) as Hne.
  { intros ->. by rewrite fresh_unused in Hconfig. }
  split.
  - rewrite (from_config_run _ _ _ _ Hconfig Hq).
    unfold mbind, M_bind, bind, framework. simpl.
    destruct (deserialize_keras_object serialized globals VNone (world st))
      as [[q|e] w]; simpl.
    + destruct (new_heap q (delete "quantizer" d)
                  (State (<[fresh (dom (heap st)) := delete "quantizer" d]> (heap st)) w))
        as (attrs & ->). simpl.
      rewrite lookup_insert_ne.
      * by rewrite lookup_insert_ne.
      * intros Heq.
        pose proof (fresh_unused
          (<[fresh (dom (heap st)) := delete "quantizer" d]> (heap st))) as Hfresh.
        rewrite Heq, lookup_insert_ne, Hconfig in Hfresh; done.
    + by rewrite lookup_insert_ne.
  - exists (delete "quantizer" d). repeat split.
    + intros k Hk. by apply lookup_delete_ne.
    + apply lookup_delete_eq.
    + by apply from_config_run.
Qed.

End Properties.

(** ** The module run on the small framework *)

Lemma mock_smart_cond_definite : @smart_cond_definite Mock.world Mock.keras.
Proof. by intros b t f st. Qed.

Lemma mock_smart_cond_selects : @smart_cond_selects Mock.world Mock.keras.
Proof.
  intros p t f [h w]. exists w. simpl.
  destruct p as [|[]|[|[]|]| | |]; eauto.
Qed.

Lemma mock_built :
  built 1 Mock.last_value (Mock.variable 3) (Mock.variable 1) (Mock.variable 2)
    Mock.built_layer.
Proof. eexists. split; [by vm_compute |]. by vm_compute. Qed.

Example new_None :
  (new VNone ∅ Mock.st0).1
  = Raise (ValueError
      "quantizer should not be None, and should be an instanceof `tfmot.quantization.keras.Quantizer`.").
Proof. reflexivity. Qed.

Example new_tensor :
  (new Mock.tensor ∅ Mock.st0).1
  = Raise (ValueError
      "quantizer should not be None, and should be an instanceof `tfmot.quantization.keras.Quantizer`.").
Proof. reflexivity. Qed.

(** The base class constructor runs first: what it raises is what the
    construction raises, whatever the quantizer. *)
Example new_unknown_keyword :
  (new VNone {[ "units" := VInt 3 ]} Mock.st0).1
  = Raise (TypeError "Keyword argument not understood").
Proof. by vm_compute. Qed.

Example new_last_value :
  new Mock.last_value {[ "name" := VStr "quant" ]} Mock.st0
  = (Return 1%positive,
     State {[ 1%positive := {[ "quantizer" := Mock.last_value ]} ]}
       (Mock.World [] (VBool false)
          {[ 1%positive := {[ "name" := VStr "quant" ]} ]} 100)).
Proof. by vm_compute. Qed.

Example build_last_value :
  heap Mock.built_layer
  = {[ 1%positive := {[ "quantizer" := Mock.last_value;
                        "min_var" := Mock.variable 1;
                        "max_var" := Mock.variable 2;
                        "optimizer_step" := Mock.variable 3 ]} ]}
  ∧ Mock.variables (world Mock.built_layer)
    = [WeightSpec "min" (Constant (-6)) float32 false;
       WeightSpec "max" (Constant 6) float32 false;
       WeightSpec "optimizer_step" (Constant (-1)) int32 false].
Proof. by vm_compute. Qed.

Example call_training :
  (call 1 Mock.tensor (VBool true) Mock.built_layer).1
  = Return (VTuple [Mock.tensor; Mock.variable 3; VBool true;
                    Mock.variable 1; Mock.variable 2]).
Proof. by vm_compute. Qed.

Example call_default :
  (call 1 Mock.tensor VNone Mock.built_layer).1
  = Return (VTuple [Mock.tensor; Mock.variable 3; VBool false;
                    Mock.variable 1; Mock.variable 2]).
Proof. by vm_compute. Qed.

Example call_before_build :
  (call 1 Mock.tensor (VBool true) Mock.constructed).1
  = Raise (AttributeError "optimizer_step").
Proof. by vm_compute. Qed.

Example from_config_without_quantizer :
  (from_config 5 (State {[ 5%positive := {[ "name" := VStr "quant" ]} ]} Mock.w0)).1
  = Raise (KeyError "quantizer").
Proof. by vm_compute. Qed.

Lemma init_rejects_exactly_invalid_quantizers_witness :
  ((∃ msg st', __init__ 1 Mock.last_value ∅ Mock.allocated
               = (Raise (ValueError msg), st'))
     ↔ Mock.last_value = VNone ∨ isinstance Mock.last_value Quantizer = false)
  ∧ (Mock.last_value ≠ VNone → isinstance Mock.last_value Quantizer = true →
       ∃ st', __init__ 1 Mock.last_value ∅ Mock.allocated = (Return tt, st'))
  ∧ (∀ st', __init__ 1 Mock.last_value ∅ Mock.allocated = (Return tt, st') →
       getattr 1 "quantizer" st' = (Return Mock.last_value, st')).
Proof.
  apply (init_rejects_exactly_invalid_quantizers 1 Mock.last_value ∅
           Mock.allocated ∅
           (Mock.World [] (VBool false) {[ 1%positive := ∅ ]} 100)).
  - vm_compute. reflexivity.
  - vm_compute. reflexivity.
Defined.

Lemma call_definite_training_selects_mode_witness :
  call 1 Mock.tensor (VBool true) Mock.built_layer
  = framework (Quantizer_call Mock.last_value Mock.tensor (Mock.variable 3)
                 (VBool true)
                 {[ "min_var" := Mock.variable 1; "max_var" := Mock.variable 2 ]})
      Mock.built_layer.
Proof.
  exact (call_definite_training_selects_mode 1 Mock.tensor true
           Mock.last_value (Mock.variable 3) (Mock.variable 1) (Mock.variable 2)
           Mock.built_layer mock_smart_cond_definite mock_built).
Defined.

Lemma call_returns_what_smart_cond_returns_witness :
  (∀ (train_var : bool) st1,
     heap st1 = heap Mock.built_layer →
     _make_quantizer_fn 1 Mock.tensor train_var st1
     = framework (Quantizer_call Mock.last_value Mock.tensor (Mock.variable 3)
                    (VBool train_var)
                    {[ "min_var" := Mock.variable 1;
                       "max_var" := Mock.variable 2 ]}) st1)
  ∧ (∀ v st',
       call 1 Mock.tensor VNone Mock.built_layer = (Return v, st') →
       ∃ flag w,
         (if is_None VNone
          then learning_phase (world Mock.built_layer) = (Return flag, w)
          else flag = VNone ∧ w = world Mock.built_layer)
         ∧ smart_cond flag (_make_quantizer_fn 1 Mock.tensor true)
             (_make_quantizer_fn 1 Mock.tensor false)
             (State (heap Mock.built_layer) w)
           = (Return v, st'))
  ∧ (smart_cond_selects →
     ∀ v st',
       call 1 Mock.tensor VNone Mock.built_layer = (Return v, st') →
       ∃ (train_var : bool) w,
         Quantizer_call Mock.last_value Mock.tensor (Mock.variable 3)
           (VBool train_var)
           {[ "min_var" := Mock.variable 1; "max_var" := Mock.variable 2 ]} w
         = (Return v, world st')
         ∧ heap st' = heap Mock.built_layer).
Proof.
  exact (call_returns_what_smart_cond_returns 1 Mock.tensor VNone
           Mock.last_value (Mock.variable 3) (Mock.variable 1) (Mock.variable 2)
           Mock.built_layer mock_built).
Defined.


Lemma call_changes_only_through_its_callees_witness :
  heap (call 1 Mock.tensor VNone Mock.built_layer).2 = heap Mock.built_layer.
Proof.
  exact (proj2 (call_changes_only_through_its_callees 1 Mock.tensor VNone)
           mock_smart_cond_selects Mock.built_layer).
Defined.

Lemma config_round_trip_witness :
  ∃ h, heap Mock.constructed ⊆ h
    ∧ (config ← get_config 1; from_config config) Mock.constructed
      = new (VObj ["LastValueQuantizer"; Quantizer; "object"] 100)
          {[ "name" := VStr "quant" ]}
          (State h (Mock.World [] (VBool false)
                      {[ 1%positive := {[ "name" := VStr "quant" ]} ]} 101))
    ∧ (isinstance (VObj ["LastValueQuantizer"; Quantizer; "object"] 100) Quantizer
       = true →
       ∀ w4, Layer_init (fresh (dom h)) {[ "name" := VStr "quant" ]}
               (Mock.World [] (VBool false)
                  {[ 1%positive := {[ "name" := VStr "quant" ]} ]} 101)
             = (Return tt, w4) →
       ∃ l st', (config ← get_config 1; from_config config) Mock.constructed
                = (Return l, st'))
    ∧ (∀ l st',
         (config ← get_config 1; from_config config) Mock.constructed
         = (Return l, st') →
         getattr l "quantizer" st'
         = (Return (VObj ["LastValueQuantizer"; Quantizer; "object"] 100), st')).
Proof.
  apply (config_round_trip 1 {[ "quantizer" := Mock.last_value ]}
           Mock.last_value {[ "name" := VStr "quant" ]}
           (VStr "LastValueQuantizer")
           (VObj ["LastValueQuantizer"; Quantizer; "object"] 100)
           Mock.constructed (world Mock.constructed) (world Mock.constructed)).
  - vm_compute. reflexivity.
  - vm_compute. reflexivity.
  - vm_compute. reflexivity.
  - vm_compute. reflexivity.
  - vm_compute. reflexivity.
  - vm_compute. reflexivity.
Defined.

Lemma call_raises_only_what_its_callees_raise_witness :
  ((VStr "train" = VNone
      ∧ learning_phase (world Mock.built_layer)
        = (Raise (TypeError "`pred` must be a Tensor, or a Python bool, or 1 or 0"),
           world Mock.built_layer)
      ∧ heap Mock.built_layer = heap Mock.built_layer)
   ∨ ∃ pred w,
       smart_cond pred (_make_quantizer_fn 1 Mock.tensor true)
         (_make_quantizer_fn 1 Mock.tensor false)
         (State (heap Mock.built_layer) w)
       = (Raise (TypeError "`pred` must be a Tensor, or a Python bool, or 1 or 0"),
          Mock.built_layer))
  ∧ (∀ (train_var : bool) st1 e1 st1',
       heap st1 = heap Mock.built_layer →
       _make_quantizer_fn 1 Mock.tensor train_var st1 = (Raise e1, st1') →
       Quantizer_call Mock.last_value Mock.tensor (Mock.variable 3)
         (VBool train_var)
         {[ "min_var" := Mock.variable 1; "max_var" := Mock.variable 2 ]}
         (world st1)
       = (Raise e1, world st1')
       ∧ heap st1' = heap st1).
Proof.
  apply (call_raises_only_what_its_callees_raise 1 Mock.tensor (VStr "train")
           Mock.last_value (Mock.variable 3) (Mock.variable 1) (Mock.variable 2)
           Mock.built_layer _ Mock.built_layer mock_built).
  vm_compute. reflexivity.
Defined.

Lemma call_without_training_uses_learning_phase_witness :
  call 1 Mock.tensor VNone Mock.built_layer
  = call 1 Mock.tensor (VBool false)
      (State (heap Mock.built_layer) (world Mock.built_layer)).
Proof.
  refine (proj2 (proj1 (call_without_training_uses_learning_phase
                          1 Mock.tensor Mock.built_layer)
                   (VBool false) (world Mock.built_layer) _) _).
  - vm_compute. reflexivity.
  - discriminate.
Defined.

Lemma build_optimizer_step_is_int32_weight_from_minus_one_witness :
  ∃ spec step w,
    Layer_add_weight 1 spec w = (Return step, world Mock.built_layer)
    ∧ getattr 1 "optimizer_step" Mock.built_layer = (Return step, Mock.built_layer)
    ∧ w_name spec = "optimizer_step"
    ∧ w_initializer spec = Constant (-1)
    ∧ w_dtype spec = int32
    ∧ dtype_is_integer (w_dtype spec) = true
    ∧ dtype_bits (w_dtype spec) = 32%Z
    ∧ w_trainable spec = false.
Proof.
  apply (build_optimizer_step_is_int32_weight_from_minus_one 1 Mock.shape
           Mock.constructed Mock.built_layer).
  vm_compute. reflexivity.
Defined.

Lemma from_config_works_on_a_copy_witness :
  heap (from_config 5 Mock.with_config).2 !! 5%positive
  = Some {[ "quantizer" := VStr "LastValueQuantizer"; "name" := VStr "quant" ]}
  ∧ ∃ kwargs,
      (∀ k, k ≠ "quantizer" →
         kwargs !! k
         = ({[ "quantizer" := VStr "LastValueQuantizer"; "name" := VStr "quant" ]}
              : gmap string value) !! k)
      ∧ kwargs !! "quantizer" = None
      ∧ from_config 5 Mock.with_config
        = (quantizer ← framework
                         (deserialize_keras_object (VStr "LastValueQuantizer")
                            globals VNone);
           new quantizer kwargs)
            (State (<[fresh (dom (heap Mock.with_config)) := kwargs]>
                      (heap Mock.with_config))
                   (world Mock.with_config)).
Proof.
  apply (from_config_works_on_a_copy 5
           {[ "quantizer" := VStr "LastValueQuantizer"; "name" := VStr "quant" ]}
           (VStr "LastValueQuantizer") Mock.with_config).
  - vm_compute. reflexivity.
  - vm_compute. reflexivity.
Defined.

(** ** Further properties: failures, frames and composition *)

Section Further.
Context {W : Type} `{!Framework W}.

Implicit Types (st : state W) (self : loc) (v quantizer : value).

(** *** Construction *)

(** X1. [__init__] raises nothing but what the base class constructor
    raises and its own [ValueError].  The base class constructor comes
    first: when it raises, that exception is the outcome whatever the
    quantizer is, and nothing is stored; the [ValueError] is raised only
    after it has returned, with its effects on the framework in place, and
    only for an object that is no instance of [Quantizer]. *)
Theorem init_raises_base_exception_or_ValueError self quantizer kwargs st :
  (∀ e w, Layer_init self kwargs (world st) = (Raise e, w) →
          __init__ self quantizer kwargs st = (Raise e, State (heap st) w))
  ∧ (∀ e st', __init__ self quantizer kwargs st = (Raise e, st') →
       heap st' = heap st
       ∧ (Layer_init self kwargs (world st) = (Raise e, world st')
          ∨ (∃ msg, e = ValueError msg)
            ∧ Layer_init self kwargs (world st) = (Return tt, world st')
            ∧ isinstance quantizer Quantizer = false)).
Proof.
  split.
  - intros e w Hbase. by apply init_base_raises.
  - intros e st'.
    destruct (Layer_init self kwargs (world st)) as [[[]|e0] w] eqn:Hbase.
    + rewrite (init_after_base _ _ _ _ w) by done.
      destruct (is_None quantizer) eqn:Hnone; simpl.
      * apply is_None_spec in Hnone as ->. intros [= <- <-]. simpl.
        split; [done |]. right. eauto using None_is_no_Quantizer.
      * destruct (isinstance quantizer Quantizer); simpl; [done |].
        intros [= <- <-]. simpl. split; [done |]. right. eauto.
    + rewrite (init_base_raises _ _ _ _ e0 w) by done.
      intros [= <- <-]. simpl. auto.
Qed.


(** *** [build] *)

Lemma bind_raise {A B} (m : M W A) (k : A → M W B) st e st1 :
  m st = (Raise e, st1) → (x ← m; k x) st = (Raise e, st1).
Proof. intros Hm. unfold mbind, M_bind, bind. by rewrite Hm. Qed.






(** X5. When the quantizer's [build] returns a tuple that has not exactly
    two elements, [build] raises a [ValueError] from the unpacking: no
    attribute has been assigned, and [add_weight] has not been called (the
    framework's world is the one the quantizer's [build] left). *)
Theorem build_rejects_a_tuple_that_is_no_pair
    self attrs quantizer name vs input_shape st w1 w2 :
  heap st !! self = Some attrs →
  attrs !! "quantizer" = Some quantizer →
  Layer_name self (world st) = (Return name, w1) →
  Quantizer_build quantizer input_shape name self w1 = (Return (VTuple vs), w2) →
  length vs ≠ 2 →
  ∃ msg, build self input_shape st = (Raise (ValueError msg), State (heap st) w2).
Proof.
  intros Hself Hq Hname Hbuild Hlen. unfold build.
  erewrite bind_run by (by eapply getattr_run).
  erewrite bind_run by (by apply framework_Return).
  erewrite bind_run by (by apply framework_Return).
  destruct vs as [|a [|b [|c vs]]]; [| | done |]; eexists; by apply bind_raise.
Qed.

(** X6. When [add_weight] raises, [build] raises the same, and the layer
    is left half built: [min_var] and [max_var] are assigned, the attribute
    [optimizer_step] is not. *)
Theorem build_is_left_half_done_when_add_weight_raises
    self attrs quantizer name min_var max_var input_shape st w1 w2 e w3 :
  heap st !! self = Some attrs →
  attrs !! "quantizer" = Some quantizer →
  Layer_name self (world st) = (Return name, w1) →
  Quantizer_build quantizer input_shape name self w1
  = (Return (VTuple [min_var; max_var]), w2) →
  Layer_add_weight self
    (WeightSpec "optimizer_step" (Constant (-1)) int32 false) w2
  = (Raise e, w3) →
  build self input_shape st
  = (Raise e,
     State (<[self := <["max_var" := max_var]> (<["min_var" := min_var]> attrs)]>
              (heap st)) w3).
Proof.
  intros Hself Hq Hname Hbuild Hadd. unfold build.
  erewrite bind_run by (by eapply getattr_run).
  erewrite bind_run by (by apply framework_Return).
  erewrite bind_run by (by apply framework_Return).
  erewrite bind_run by reflexivity. cbv beta iota.
  erewrite bind_run by reflexivity.
  erewrite bind_run by reflexivity.
  apply bind_raise. unfold framework. simpl. rewrite Hadd. f_equal. f_equal.
  rewrite (alter_Some <["min_var" := min_var]> _ _ _ Hself).
  rewrite (alter_Some <["max_var" := max_var]> _ _ (<["min_var" := min_var]> attrs))
    by apply lookup_insert_eq.
  by rewrite insert_insert_eq.
Qed.

(** *** [call] *)

(** X7. [call] on a layer that was constructed and not built raises
    [AttributeError] for [optimizer_step], the first attribute it reads
    that [build] would have set; the quantizer is not called and nothing
    changes. *)
Theorem call_before_build_raises_AttributeError
    quantizer kwargs inputs (training : bool) st0 self st :
  smart_cond_definite →
  new quantizer kwargs st0 = (Return self, st) →
  call self inputs (VBool training) st
  = (Raise (AttributeError "optimizer_step"), st).
Proof.
  intros Hcond (-> & _ & w & _ & ->)%new_Return. unfold call.
  erewrite bind_run by reflexivity. rewrite Hcond.
  assert (∀ b, _make_quantizer_fn (fresh (dom (heap st0))) inputs b
                 (State (<[fresh (dom (heap st0)) := {[ "quantizer" := quantizer ]}]>
                           (heap st0)) w)
               = (Raise (AttributeError "optimizer_step"),
                  State (<[fresh (dom (heap st0)) := {[ "quantizer" := quantizer ]}]>
                           (heap st0)) w)) as Hfn.
  { intros b. unfold _make_quantizer_fn.
    erewrite bind_run
      by (eapply getattr_run; [apply lookup_insert_eq | apply lookup_singleton_eq]).
    apply bind_raise. unfold getattr. simpl. by rewrite lookup_insert_eq. }
  destruct training; apply Hfn.
Qed.

(** *** Configuration *)

(** X8. When the framework's calls return, [get_config] returns a new
    dictionary, at an address that was not in use: its entry [quantizer] is
    the serialized quantizer, also when the base configuration has an entry
    of that name, and under every other key it has what the base
    configuration has.  The dictionaries that existed are as before. *)
Theorem get_config_is_base_config_with_quantizer_entry
    self attrs quantizer base_config serialized st w1 w2 :
  heap st !! self = Some attrs →
  attrs !! "quantizer" = Some quantizer →
  Layer_get_config self (world st) = (Return base_config, w1) →
  serialize_keras_object quantizer w1 = (Return serialized, w2) →
  ∃ config d,
    get_config self st = (Return config, State (<[config := d]> (heap st)) w2)
    ∧ heap st !! config = None
    ∧ d !! "quantizer" = Some serialized
    ∧ (∀ k, k ≠ "quantizer" → d !! k = base_config !! k).
Proof.
  intros Hself Hq Hbase Hser.
  exists (fresh (dom (heap st))), (<["quantizer" := serialized]> base_config).
  repeat split.
  - by eapply get_config_run.
  - apply fresh_unused.
  - apply lookup_insert_eq.
  - intros k Hk. by apply lookup_insert_ne.
Qed.

(** X9. Whatever its outcome, [get_config] changes no dictionary that
    exists; when it raises, it has created none either. *)
Theorem get_config_changes_no_existing_dictionary self st :
  heap st ⊆ heap (get_config self st).2
  ∧ (∀ e st', get_config self st = (Raise e, st') → heap st' = heap st).
Proof.
  unfold get_config, mbind, M_bind, bind, framework, getattr, alloc.
  destruct (Layer_get_config self (world st)) as [[base|e0] w1]; simpl.
  - destruct (heap st !! self ≫= (.!! "quantizer")) as [q|]; simpl.
    + destruct (serialize_keras_object q w1) as [[s|e1] w2]; simpl.
      * split; [| done]. apply insert_subseteq, fresh_unused.
      * split; [done |]. by intros e st' [= _ <-].
    + split; [done |]. by intros e st' [= _ <-].
  - split; [done |]. by intros e st' [= _ <-].
Qed.

Lemma from_config_missing_key_run config d st :
  heap st !! config = Some d →
  d !! "quantizer" = None →
  from_config config st
  = (Raise (KeyError "quantizer"),
     State (<[fresh (dom (heap st)) := d]> (heap st)) (world st)).
Proof.
  intros Hconfig Hq.
  unfold from_config, mbind, M_bind, bind, dict_copy, alloc, dict_pop.
  rewrite Hconfig. simpl. rewrite lookup_insert_eq. simpl. by rewrite Hq.
Qed.

(** X10. On a dictionary that has no entry [quantizer], [from_config]
    raises [KeyError] for that key.  Nothing has been deserialized or
    constructed (the framework's world is untouched), and the caller's
    dictionary is as before: only its copy exists in addition. *)
Theorem from_config_without_quantizer_raises_KeyError config d st :
  heap st !! config = Some d →
  d !! "quantizer" = None →
  from_config config st
  = (Raise (KeyError "quantizer"),
     State (<[fresh (dom (heap st)) := d]> (heap st)) (world st))
  ∧ heap st !! fresh (dom (heap st)) = None.
Proof.
  intros Hconfig Hq. split; [| apply fresh_unused].
  by apply from_config_missing_key_run.
Qed.

(** X11. The check of the constructor applies to what was deserialized:
    when the entry [quantizer] deserializes to an object that is no instance
    of [Quantizer] (and the base class accepts the other entries as
    keywords), [from_config] raises the [ValueError] of [__init__]. *)
Theorem from_config_rejects_a_deserialized_non_quantizer
    config d serialized quantizer st w1 w2 :
  heap st !! config = Some d →
  d !! "quantizer" = Some serialized →
  deserialize_keras_object serialized globals VNone (world st)
  = (Return quantizer, w1) →
  isinstance quantizer Quantizer = false →
  Layer_init
    (fresh (dom (<[fresh (dom (heap st)) := delete "quantizer" d]> (heap st))))
    (delete "quantizer" d) w1
  = (Return tt, w2) →
  ∃ msg st',
    from_config config st = (Raise (ValueError msg), st')
    ∧ heap st' !! config = Some d
    ∧ world st' = w2.
Proof.
  intros Hconfig Hq Hdeser Hinst Hbase.
  rewrite (from_config_run _ _ _ _ Hconfig Hq).
  erewrite bind_run by (by apply framework_Return).
  unfold new. erewrite bind_run by reflexivity.
  eexists _, _. split.
  - apply bind_raise. rewrite (init_after_base _ _ _ _ w2) by done.
    by rewrite Hinst, orb_true_r.
  - simpl. split; [| done].
    assert (config ≠ fresh (dom (heap st))) as Hne1.
    { intros ->. by rewrite fresh_unused in Hconfig. }
    rewrite lookup_insert_ne.
    + by rewrite lookup_insert_ne.
    + intros Heq.
      pose proof (fresh_unused
        (<[fresh (dom (heap st)) := delete "quantizer" d]> (heap st))) as Hfresh.
      rewrite Heq, lookup_insert_ne, Hconfig in Hfresh; done.
Qed.

(** X12. Whatever [config] holds and however it ends, [from_config]
    changes no object that exists; a layer it returns is at an address that
    was not in use. *)
Theorem from_config_changes_no_existing_object config st :
  heap st ⊆ heap (from_config config st).2
  ∧ (∀ l st', from_config config st = (Return l, st') →
       heap st !! l = None ∧ is_Some (heap st' !! l)).
Proof.
  destruct (heap st !! config) as [d|] eqn:Hconfig.
  - set (c := fresh (dom (heap st))).
    assert (heap st ⊆ <[c := d]> (heap st)) as Hcopy
      by apply insert_subseteq, fresh_unused.
    destruct (d !! "quantizer") as [s|] eqn:Hq.
    + rewrite (from_config_run _ _ _ _ Hconfig Hq). fold c.
      set (h1 := <[c := delete "quantizer" d]> (heap st)).
      assert (heap st ⊆ h1) as Hh1 by apply insert_subseteq, fresh_unused.
      unfold mbind, M_bind, bind, framework. simpl.
      destruct (deserialize_keras_object s globals VNone (world st))
        as [[q|e] w]; simpl; [| by split].
      destruct (new_heap q (delete "quantizer" d) (State h1 w)) as (a & Hnew).
      simpl in Hnew. split.
      * rewrite Hnew. etrans; [exact Hh1 |]. apply insert_subseteq, fresh_unused.
      * intros l st' Hrun. rewrite Hrun in Hnew. simpl in Hnew.
        apply new_Return in Hrun as (-> & _). simpl. split.
        -- pose proof (fresh_unused h1) as Hfresh.
           destruct (heap st !! fresh (dom h1)) as [x|] eqn:Hl; [| done].
           by rewrite (lookup_weaken _ _ _ _ Hl Hh1) in Hfresh.
        -- rewrite Hnew, lookup_insert_eq. eauto.
    + rewrite (from_config_missing_key_run config d st Hconfig Hq).
      by split.
  - unfold from_config, mbind, M_bind, bind, dict_copy. rewrite Hconfig. by split.
Qed.

(** *** From construction to the forward computation *)


End Further.

(** ** The further properties run on the small frameworks *)

Lemma build_rejects_a_tuple_that_is_no_pair_witness :
  ∃ msg,
    @build Mock.world Faulty.triple 1 Mock.shape Mock.constructed
    = (Raise (ValueError msg),
       State (heap Mock.constructed)
         (Faulty.build_triple Mock.last_value Mock.shape (VStr "quant") 1
            (world Mock.constructed)).2).
Proof.
  apply (@build_rejects_a_tuple_that_is_no_pair Mock.world Faulty.triple 1
           {[ "quantizer" := Mock.last_value ]} Mock.last_value (VStr "quant")
           [Mock.variable 1; Mock.variable 2; Mock.variable 3]
           Mock.shape Mock.constructed (world Mock.constructed)).
  - vm_compute. reflexivity.
  - vm_compute. reflexivity.
  - vm_compute. reflexivity.
  - vm_compute. reflexivity.
  - simpl. lia.
Defined.

Lemma build_is_left_half_done_when_add_weight_raises_witness :
  @build Mock.world Faulty.no_weights 1 Mock.shape Mock.constructed
  = (Raise (FrameworkError "ResourceExhaustedError" "out of memory"),
     State (<[1%positive := <["max_var" := Mock.variable 2]>
                              (<["min_var" := Mock.variable 1]>
                                 {[ "quantizer" := Mock.last_value ]})]>
              (heap Mock.constructed))
       (Mock.quantizer_build Mock.last_value Mock.shape (VStr "quant") 1
          (world Mock.constructed)).2).
Proof.
  apply (@build_is_left_half_done_when_add_weight_raises Mock.world
           Faulty.no_weights 1 {[ "quantizer" := Mock.last_value ]}
           Mock.last_value (VStr "quant") (Mock.variable 1) (Mock.variable 2)
           Mock.shape Mock.constructed (world Mock.constructed)
           (Mock.quantizer_build Mock.last_value Mock.shape (VStr "quant") 1
              (world Mock.constructed)).2).
  - vm_compute. reflexivity.
  - vm_compute. reflexivity.
  - vm_compute. reflexivity.
  - vm_compute. reflexivity.
  - vm_compute. reflexivity.
Defined.

Lemma call_before_build_raises_AttributeError_witness :
  call 1 Mock.tensor (VBool true) Mock.constructed
  = (Raise (AttributeError "optimizer_step"), Mock.constructed).
Proof.
  apply (call_before_build_raises_AttributeError Mock.last_value
           {[ "name" := VStr "quant" ]} Mock.tensor true Mock.st0 1
           Mock.constructed mock_smart_cond_definite).
  vm_compute. reflexivity.
Defined.

Lemma get_config_is_base_config_with_quantizer_entry_witness :
  ∃ config d,
    get_config 1 Mock.constructed
    = (Return config,
       State (<[config := d]> (heap Mock.constructed)) (world Mock.constructed))
    ∧ heap Mock.constructed !! config = None
    ∧ d !! "quantizer" = Some (VStr "LastValueQuantizer")
    ∧ (∀ k, k ≠ "quantizer" →
         d !! k = ({[ "name" := VStr "quant" ]} : gmap string value) !! k).
Proof.
  apply (get_config_is_base_config_with_quantizer_entry 1
           {[ "quantizer" := Mock.last_value ]} Mock.last_value
           {[ "name" := VStr "quant" ]} (VStr "LastValueQuantizer")
           Mock.constructed (world Mock.constructed) (world Mock.constructed)).
  - vm_compute. reflexivity.
  - vm_compute. reflexivity.
  - vm_compute. reflexivity.
  - vm_compute. reflexivity.
Defined.

Lemma from_config_without_quantizer_raises_KeyError_witness :
  from_config 5 Faulty.without_quantizer
  = (Raise (KeyError "quantizer"),
     State (<[fresh (dom (heap Faulty.without_quantizer))
              := {[ "name" := VStr "quant" ]}]>
              (heap Faulty.without_quantizer))
       (world Faulty.without_quantizer))
  ∧ heap Faulty.without_quantizer
      !! fresh (dom (heap Faulty.without_quantizer)) = None.
Proof.
  apply (from_config_without_quantizer_raises_KeyError 5
           {[ "name" := VStr "quant" ]} Faulty.without_quantizer).
  - vm_compute. reflexivity.
  - vm_compute. reflexivity.
Defined.

Lemma from_config_rejects_a_deserialized_non_quantizer_witness :
  ∃ msg st',
    @from_config Mock.world Faulty.any_object 5 Mock.with_config
    = (Raise (ValueError msg), st')
    ∧ heap st' !! 5%positive
      = Some {[ "quantizer" := VStr "LastValueQuantizer";
                "name" := VStr "quant" ]}
    ∧ world st'
      = Mock.World [] (VBool false)
          {[ 7%positive := {[ "name" := VStr "quant" ]} ]} 101.
Proof.
  apply (@from_config_rejects_a_deserialized_non_quantizer Mock.world
           Faulty.any_object 5
           {[ "quantizer" := VStr "LastValueQuantizer"; "name" := VStr "quant" ]}
           (VStr "LastValueQuantizer") (VObj ["Dense"; "Layer"; "object"] 100)
           Mock.with_config
           (Mock.World [] (VBool false) ∅ 101)).
  - vm_compute. reflexivity.
  - vm_compute. reflexivity.
  - vm_compute. reflexivity.
  - vm_compute. reflexivity.
  - vm_compute. reflexivity.
Defined.


(** ** Unpacking, and where two claims fail as they were stated *)

Example unpack_str :
  (unpack2 (VStr "ab") Mock.st0).1 = Return (VStr "a", VStr "b").
Proof. reflexivity. Qed.

Example unpack_long_str :
  (unpack2 (VStr "abc") Mock.st0).1
  = Raise (ValueError "too many values to unpack (expected 2)").
Proof. reflexivity. Qed.

Example unpack_None :
  (unpack2 VNone Mock.st0).1
  = Raise (TypeError "cannot unpack non-iterable object").
Proof. reflexivity. Qed.

(** [build] completes when the quantizer returns its variables in a list. *)
Example build_with_a_list :
  (@build Mock.world Faulty.pair_in_a_list 1 Mock.shape Mock.constructed).1
  = Return tt
  ∧ heap (@build Mock.world Faulty.pair_in_a_list 1 Mock.shape
            Mock.constructed).2
    = {[ 1%positive := {[ "quantizer" := Mock.last_value;
                          "min_var" := Mock.variable 1;
                          "max_var" := Mock.variable 2;
                          "optimizer_step" := Mock.variable 3 ]} ]}.
Proof. by vm_compute. Qed.

(** C1 as it was stated fails where the base class refuses a keyword: the
    quantizer is [None], and the construction raises the [TypeError] of the
    base class constructor, which runs first, and no [ValueError]. *)
Lemma construction_with_refused_keyword_raises_TypeError :
  (VNone = VNone ∨ isinstance VNone Quantizer = false)
  ∧ new VNone {[ "units" := VInt 3 ]} Mock.st0
    = (Raise (TypeError "Keyword argument not understood"),
       State {[ 1%positive := ∅ ]} Mock.w0)
  ∧ ¬ (∃ msg st',
         new VNone {[ "units" := VInt 3 ]} Mock.st0
         = (Raise (ValueError msg), st')).
Proof.
  split; [by left |]. split; [by vm_compute |].
  intros (msg & st' & Hrun). vm_compute in Hrun. discriminate Hrun.
Qed.

(** C3 as it was stated fails for a symbolic training flag: in graph mode
    [smart_cond] runs both closures and returns a tensor of its own, so
    what [call] returns on a built layer is a value that no call of the
    stored quantizer returned. *)
Lemma call_in_graph_mode_returns_a_tensor_of_smart_cond :
  built 1 Mock.last_value (Mock.variable 3) (Mock.variable 1) (Mock.variable 2)
    Mock.built_layer
  ∧ @smart_cond_definite Mock.world Graph.keras
  ∧ (@call Mock.world Graph.keras 1 Mock.tensor Graph.training_placeholder
       Mock.built_layer).1
    = Return (VObj Graph.Tensor_mro 100)
  ∧ (∀ (train_var : bool) kwargs w r w',
       @Quantizer_call Mock.world Graph.keras Mock.last_value Mock.tensor
         (Mock.variable 3) (VBool train_var) kwargs w = (Return r, w') →
       r ≠ VObj Graph.Tensor_mro 100).
Proof.
  split; [apply mock_built |]. split; [by intros b t f st |].
  split; [by vm_compute |].
  intros train_var kwargs w r w' Hcall. simpl in Hcall.
  unfold Mock.quantizer_call in Hcall.
  destruct (isinstance Mock.last_value Quantizer); by simplify_eq.
Qed.
